(** * Client-side error signals of the IoTDB Python client

    A shallow embedding of [iotdb/utils/exception.py]: the three exception
    classes [IoTDBConnectionException], [StatementExecutionException] and
    [RedirectException], whose constructors only decide what is handed to
    [Exception.__init__] and which instance attribute is bound. *)

From Stdlib Require Import Ascii String ZArith.
From stdpp Require Import gmap strings list pretty.

Set Warnings "-register-all".

Open Scope string_scope.
Open Scope Z_scope.

(** ** Python values

    The constructors are untyped: every argument may be any object.  The
    universe below holds the values the client really passes around: [None],
    booleans, integers, strings, tuples, dicts (insertion-ordered, hence an
    association list), exceptions that keep [BaseException]'s [__str__], and
    instances of classes defined elsewhere (the thrift structs [TEndPoint]
    and [TSStatus] among them), given by their class name, their instance
    attributes and the text their [__repr__] returns. *)

Inductive value : Type :=
| VNone
| VBool (b : bool)
| VInt (n : Z)
| VStr (s : string)
| VTuple (xs : list value)
| VDict (items : list (value * value))
| VException (cls : string) (args : list value)
| VObject (cls : string) (fields : gmap string value) (text : string).

(** [x is not None] *)
Definition is_not_None (v : value) : bool :=
  match v with
  | VNone => false
  | _ => true
  end.

(** [type(v).__name__] *)
Definition type_name (v : value) : string :=
  match v with
  | VNone => "NoneType"
  | VBool _ => "bool"
  | VInt _ => "int"
  | VStr _ => "str"
  | VTuple _ => "tuple"
  | VDict _ => "dict"
  | VException cls _ => cls
  | VObject cls _ _ => cls
  end.

(** [isinstance(v, TEndPoint)]: the thrift struct has no subclass. *)
Definition isinstance_TEndPoint (v : value) : bool :=
  match v with
  | VObject cls _ _ => String.eqb cls "TEndPoint"
  | _ => false
  end.

(** ** [repr] and [str] of the interpreter *)

Module Repr.

(** Strings are read as sequences of code points below 256. *)
Definition hex_digit (n : N) : ascii :=
  ascii_of_N (if (n <? 10)%N then 48 + n else 87 + n)%N.

Definition hex_escape (n : N) : string :=
  String "\" (String "x" (String (hex_digit (n / 16)) (String (hex_digit (n mod 16)) ""))).

Definition printable (n : N) : bool :=
  ((32 <=? n) && (n <? 127) || (161 <=? n) && negb (n =? 173))%N.

Definition escape_char (quote c : ascii) : string :=
  let n := N_of_ascii c in
  if Ascii.eqb c quote || Ascii.eqb c "\" then String "\" (String c "")
  else if (n =? 9)%N then "\t"
  else if (n =? 10)%N then "\n"
  else if (n =? 13)%N then "\r"
  else if printable n then String c ""
  else hex_escape n.

Fixpoint escape (quote : ascii) (s : string) : string :=
  match s with
  | EmptyString => ""
  | String c s' => escape_char quote c +:+ escape quote s'
  end.

Fixpoint contains (c : ascii) (s : string) : bool :=
  match s with
  | EmptyString => false
  | String c' s' => Ascii.eqb c c' || contains c s'
  end.

(** Single quotes, unless the text has a single quote and no double one. *)
Definition quote_of (s : string) : ascii :=
  if contains "'" s && negb (contains "034" s) then "034"%char else "'"%char.

Definition str_repr (s : string) : string :=
  let q := quote_of s in
  String q (escape q s) +:+ String q "".

Fixpoint join (sep : string) (l : list string) : string :=
  match l with
  | [] => ""
  | [x] => x
  | x :: l' => x +:+ sep +:+ join sep l'
  end.

End Repr.

Fixpoint py_repr (v : value) : string :=
  match v with
  | VNone => "None"
  | VBool b => if b then "True" else "False"
  | VInt n => pretty n
  | VStr s => Repr.str_repr s
  | VTuple xs =>
      match xs with
      | [x] => "(" +:+ py_repr x +:+ ",)"
      | _ => "(" +:+ Repr.join ", " (map py_repr xs) +:+ ")"
      end
  | VDict items =>
      "{" +:+ Repr.join ", "
                (map (fun kv => py_repr (fst kv) +:+ ": " +:+ py_repr (snd kv)) items)
          +:+ "}"
  | VException cls args => cls +:+ "(" +:+ Repr.join ", " (map py_repr args) +:+ ")"
  | VObject _ _ text => text
  end.

(** [BaseException.__str__] on the [args] tuple; [str] of everything else
    but a string is its [repr]. *)
Fixpoint py_str (v : value) : string :=
  match v with
  | VStr s => s
  | VException _ args =>
      match args with
      | [] => ""
      | [a] => py_str a
      | _ => py_repr (VTuple args)
      end
  | _ => py_repr v
  end.

(** Replacement fields of an f-string, [{x}], call [format(x, "")], which is
    [str(x)] for every value above. *)
Definition py_format (v : value) : string := py_str v.

(** ** Errors raised while a constructor runs *)

Inductive raised : Type :=
| AttributeError (type attr : string).

Inductive result (A : Type) : Type :=
| Returns (a : A)
| Raises (e : raised).
Arguments Returns {A} a.
Arguments Raises {A} e.

#[global] Instance result_ret : MRet result := fun A a => Returns a.
#[global] Instance result_bind : MBind result := fun A B k m =>
  match m with
  | Returns a => k a
  | Raises e => Raises e
  end.
#[global] Instance result_fmap : FMap result := fun A B f m =>
  match m with
  | Returns a => Returns (f a)
  | Raises e => Raises e
  end.

(** [v.name] *)
Definition getattr (v : value) (name : string) : result value :=
  match v with
  | VObject cls fields _ =>
      match fields !! name with
      | Some x => Returns x
      | None => Raises (AttributeError cls name)
      end
  | VException cls args =>
      if String.eqb name "args" then Returns (VTuple args)
      else Raises (AttributeError cls name)
  | _ => Raises (AttributeError (type_name v) name)
  end.

(** ** Instances of the classes of this module

    An instance is its class, the [args] tuple kept by [BaseException], and
    its [__dict__]. *)

Record instance : Type := MkInstance {
  class : string;
  args : list value;
  dict : gmap string value
}.

(** The object [__init__] receives as [self].  [BaseException.__new__] also
    stores the positional arguments of the call in [args]; every arm of the
    three constructors goes through [Exception.__init__], which overwrites
    them, so they are left out. *)
Definition new (cls : string) : instance :=
  {| class := cls; args := []; dict := ∅ |}.

(** [Exception.__init__(self, *args)] *)
Definition Exception_init (self : instance) (a : list value) : instance :=
  {| class := class self; args := a; dict := dict self |}.

(** [self.name = v], for a name that is no descriptor of the class. *)
Definition setattr (self : instance) (name : string) (v : value) : instance :=
  {| class := class self; args := args self; dict := <[name := v]> (dict self) |}.

(** [e.name] *)
Definition instance_getattr (e : instance) (name : string) : result value :=
  if String.eqb name "args" then Returns (VTuple (args e))
  else match dict e !! name with
       | Some x => Returns x
       | None => Raises (AttributeError (class e) name)
       end.

(** [hasattr(e, name)] for the two attributes of a redirect. *)
Definition hasattr (e : instance) (name : string) : bool :=
  match instance_getattr e name with
  | Returns _ => true
  | Raises _ => false
  end.

(** The instance seen as a value, as when it is the [cause] of another. *)
Definition as_value (e : instance) : value := VException (class e) (args e).

(** [str(e)]: the descriptive text of a signal. *)
Definition text (e : instance) : string := py_str (as_value e).

(** ** The three constructors *)

(** [IoTDBConnectionException.__init__(self, reason=None, cause=None, message=None)] *)
Definition IoTDBConnectionException (reason cause message : value) : instance :=
  let self := new "IoTDBConnectionException" in
  if is_not_None reason then Exception_init self [reason]
  else if is_not_None cause then Exception_init self [cause]
  else if is_not_None message && is_not_None cause then
    Exception_init self [message; cause]
  else Exception_init self [].

(** [StatementExecutionException.__init__(self, status=None, message=None)] *)
Definition StatementExecutionException (status message : value) : result instance :=
  let self := new "StatementExecutionException" in
  if is_not_None status then
    code ← getattr status "code";
    msg ← getattr status "message";
    mret (Exception_init self [VStr (py_format code +:+ ": " +:+ py_format msg)])
  else if is_not_None message then mret (Exception_init self [message])
  else mret (Exception_init self []).

(** [RedirectException.__init__(self, redirect_info)] *)
Definition RedirectException (redirect_info : value) : instance :=
  let self := Exception_init (new "RedirectException") [] in
  if isinstance_TEndPoint redirect_info then setattr self "redirect_node" redirect_info
  else setattr self "device_to_endpoint" redirect_info.

(** The constructor of the connection failure with the arm
    [elif message is not None and cause is not None] taken out. *)
Definition IoTDBConnectionException_three_arms (reason cause : value) : instance :=
  let self := new "IoTDBConnectionException" in
  if is_not_None reason then Exception_init self [reason]
  else if is_not_None cause then Exception_init self [cause]
  else Exception_init self [].

(** ** Sample values *)

Module Samples.

Definition endpoint (ip : string) (port : Z) : value :=
  VObject "TEndPoint" {[ "ip" := VStr ip; "port" := VInt port ]}
          ("TEndPoint(ip=" +:+ py_repr (VStr ip) +:+ ", port=" +:+ pretty port +:+ ")").

Definition EndpointA : value := endpoint "10.0.0.1" 6667.
Definition EndpointB : value := endpoint "10.0.0.2" 6667.

Definition status (code : Z) (message : string) : value :=
  VObject "TSStatus" {[ "code" := VInt code; "message" := VStr message ]}
          ("TSStatus(code=" +:+ pretty code +:+ ", message=" +:+ py_repr (VStr message) +:+ ")").

Definition mapping : value :=
  VDict [(VStr "d1", EndpointA); (VStr "d2", EndpointB)].

Definition refused : value :=
  VException "TTransportException" [VStr "Could not connect to any of [('10.0.0.1', 6667)]"].

End Samples.

(** ** Basic facts *)

Lemma is_not_None_true (v : value) : is_not_None v = true ↔ v ≠ VNone.
Proof. destruct v; simpl; split; intros; congruence. Qed.

Lemma is_not_None_false (v : value) : is_not_None v = false ↔ v = VNone.
Proof. destruct v; simpl; split; intros; congruence. Qed.

Ltac by_None v :=
  let E := fresh "E" in
  destruct (is_not_None v) eqn:E;
  [apply is_not_None_true in E | apply is_not_None_false in E; subst v].

Lemma text_empty (e : instance) : args e = [] → text e = "".
Proof. unfold text, as_value. intros ->. reflexivity. Qed.

Lemma text_single (e : instance) (a : value) : args e = [a] → text e = py_str a.
Proof. unfold text, as_value. intros ->. reflexivity. Qed.

Lemma getattr_setattr_eq (self : instance) (name : string) (v : value) :
  name ≠ "args" → instance_getattr (setattr self name v) name = Returns v.
Proof.
  intros Hname. unfold instance_getattr.
  apply String.eqb_neq in Hname. rewrite Hname. simpl.
  by rewrite lookup_insert_eq.
Qed.

Lemma getattr_setattr_ne (self : instance) (name other : string) (v : value) :
  name ≠ other →
  instance_getattr (setattr self name v) other = instance_getattr self other.
Proof.
  intros Hne. unfold instance_getattr. simpl.
  by rewrite lookup_insert_ne.
Qed.

Lemma getattr_unbound (self : instance) (name : string) :
  name ≠ "args" → dict self !! name = None →
  instance_getattr self name = Raises (AttributeError (class self) name).
Proof.
  intros Hname Hnone. unfold instance_getattr.
  apply String.eqb_neq in Hname. by rewrite Hname, Hnone.
Qed.

Lemma hasattr_getattr (e : instance) (name : string) (v : value) :
  instance_getattr e name = Returns v → hasattr e name = true.
Proof. unfold hasattr. by intros ->. Qed.

Lemma hasattr_raises (e : instance) (name : string) (err : raised) :
  instance_getattr e name = Raises err → hasattr e name = false.
Proof. unfold hasattr. by intros ->. Qed.

(** What [RedirectException] does on each side of its [isinstance] test. *)
Lemma RedirectException_endpoint (info : value) :
  isinstance_TEndPoint info = true →
  RedirectException info =
    setattr (Exception_init (new "RedirectException") []) "redirect_node" info.
Proof. unfold RedirectException. by intros ->. Qed.

Lemma RedirectException_other (info : value) :
  isinstance_TEndPoint info = false →
  RedirectException info =
    setattr (Exception_init (new "RedirectException") []) "device_to_endpoint" info.
Proof. unfold RedirectException. by intros ->. Qed.

Lemma redirect_node_of_endpoint (info : value) :
  isinstance_TEndPoint info = true →
  instance_getattr (RedirectException info) "redirect_node" = Returns info ∧
  instance_getattr (RedirectException info) "device_to_endpoint"
  = Raises (AttributeError "RedirectException" "device_to_endpoint").
Proof.
  intros Hep. rewrite (RedirectException_endpoint _ Hep). split.
  - by apply getattr_setattr_eq.
  - rewrite getattr_setattr_ne by done. by apply getattr_unbound.
Qed.

Lemma device_to_endpoint_of_other (info : value) :
  isinstance_TEndPoint info = false →
  instance_getattr (RedirectException info) "device_to_endpoint" = Returns info ∧
  instance_getattr (RedirectException info) "redirect_node"
  = Raises (AttributeError "RedirectException" "redirect_node").
Proof.
  intros Hother. rewrite (RedirectException_other _ Hother). split.
  - by apply getattr_setattr_eq.
  - rewrite getattr_setattr_ne by done. by apply getattr_unbound.
Qed.

Lemma isinstance_TEndPoint_dict (items : list (value * value)) :
  isinstance_TEndPoint (VDict items) = false.
Proof. reflexivity. Qed.

(** ** Connection failure *)

(** C1: a connection failure built with [reason=None], [cause=None] and a
    message that is not [None] is constructed with empty arguments: its
    [args] are empty, its text is empty, and it is the very signal built
    with no message at all. *)
Theorem connection_message_only_dropped (message : value) :
  message ≠ VNone →
  args (IoTDBConnectionException VNone VNone message) = [] ∧
  text (IoTDBConnectionException VNone VNone message) = "" ∧
  IoTDBConnectionException VNone VNone message
  = IoTDBConnectionException VNone VNone VNone.
Proof.
  intros Hmsg. apply is_not_None_true in Hmsg.
  unfold IoTDBConnectionException. simpl.
  rewrite andb_false_r. auto.
Qed.

Lemma connection_message_only_dropped_witness :
  VStr "connection lost" ≠ VNone ∧
  args (IoTDBConnectionException VNone VNone (VStr "connection lost")) = [].
Proof.
  split; [discriminate |].
  apply (connection_message_only_dropped (VStr "connection lost")).
  discriminate.
Defined.

(** C4: with a reason that is not [None], whatever the cause and the
    message, the signal is constructed from the reason alone: its [args]
    are [(reason,)], its text is [str(reason)] (the reason itself when it is
    a string), and no other cause or message changes the signal. *)
Theorem connection_reason_wins (reason cause message : value) :
  reason ≠ VNone →
  args (IoTDBConnectionException reason cause message) = [reason] ∧
  text (IoTDBConnectionException reason cause message) = py_str reason ∧
  (∀ s, reason = VStr s → text (IoTDBConnectionException reason cause message) = s) ∧
  (∀ cause' message',
     IoTDBConnectionException reason cause' message'
     = IoTDBConnectionException reason cause message).
Proof.
  intros Hreason.
  assert (Hargs : ∀ c m, IoTDBConnectionException reason c m
                         = Exception_init (new "IoTDBConnectionException") [reason]).
  { intros c m. unfold IoTDBConnectionException.
    destruct reason; simpl; congruence. }
  repeat split.
  - by rewrite Hargs.
  - apply text_single. by rewrite Hargs.
  - intros s ->. reflexivity.
  - intros c m. by rewrite !Hargs.
Qed.

Lemma connection_reason_wins_witness :
  text (IoTDBConnectionException (VStr "timeout") Samples.refused (VStr "ignored"))
  = "timeout".
Proof.
  assert (Hreason : VStr "timeout" ≠ VNone) by discriminate.
  destruct (connection_reason_wins (VStr "timeout") Samples.refused (VStr "ignored") Hreason)
    as (_ & _ & Hstr & _).
  exact (Hstr "timeout" eq_refl).
Defined.

(** C5: with [reason=None], a cause that is not [None] and any message, the
    text of the signal is [str(cause)]; the message changes nothing. *)
Theorem connection_cause_without_reason (cause message : value) :
  cause ≠ VNone →
  args (IoTDBConnectionException VNone cause message) = [cause] ∧
  text (IoTDBConnectionException VNone cause message) = py_str cause ∧
  (∀ message',
     IoTDBConnectionException VNone cause message'
     = IoTDBConnectionException VNone cause message).
Proof.
  intros Hcause%is_not_None_true.
  unfold IoTDBConnectionException. cbn [is_not_None].
  rewrite Hcause. split_and!; try done.
Qed.

Lemma connection_cause_without_reason_witness :
  text (IoTDBConnectionException VNone Samples.refused (VStr "while opening the session"))
  = "Could not connect to any of [('10.0.0.1', 6667)]".
Proof.
  assert (Hcause : Samples.refused ≠ VNone) by discriminate.
  destruct (connection_cause_without_reason Samples.refused
              (VStr "while opening the session") Hcause) as (_ & Htext & _).
  exact Htext.
Defined.

(** C9: the arm of the connection failure that would hand both the message
    and the cause to [Exception.__init__] is never taken.  For all reason,
    cause and message the [args] are [(reason,)] when the reason is not
    [None], else [(cause,)] when the cause is not [None], else empty; they
    never are the pair [(message, cause)]; the constructor is the one with
    that arm removed; and the message has no influence on the signal. *)
Theorem connection_message_cause_arm_dead (reason cause message : value) :
  let e := IoTDBConnectionException reason cause message in
  (reason ≠ VNone ∧ args e = [reason] ∨
   reason = VNone ∧ cause ≠ VNone ∧ args e = [cause] ∨
   reason = VNone ∧ cause = VNone ∧ args e = []) ∧
  args e ≠ [message; cause] ∧
  e = IoTDBConnectionException_three_arms reason cause ∧
  (∀ message', IoTDBConnectionException reason cause message' = e).
Proof.
  assert (Hthree : ∀ m, IoTDBConnectionException reason cause m
                        = IoTDBConnectionException_three_arms reason cause).
  { intros m. unfold IoTDBConnectionException, IoTDBConnectionException_three_arms.
    by_None reason; [done |].
    destruct (is_not_None cause) eqn:Hc; [done |].
    by rewrite andb_false_r. }
  intros e. subst e. rewrite !Hthree.
  unfold IoTDBConnectionException_three_arms.
  split_and!; [| | done | intros; by rewrite Hthree].
  - by_None reason; [left; done |].
    by_None cause; [right; left; done | right; right; done].
  - by_None reason; [done |]. by_None cause; done.
Qed.

(** ** Statement execution failure *)

Section StatusPair.

Variables (status code msg : value).
Hypothesis Hcode : getattr status "code" = Returns code.
Hypothesis Hmsg : getattr status "message" = Returns msg.

Lemma status_pair_not_None : is_not_None status = true.
Proof. clear Hmsg. destruct status; try reflexivity. discriminate Hcode. Qed.

Lemma StatementExecutionException_status (message : value) :
  StatementExecutionException status message
  = Returns (Exception_init (new "StatementExecutionException")
               [VStr (py_format code +:+ ": " +:+ py_format msg)]).
Proof.
  unfold StatementExecutionException.
  rewrite status_pair_not_None, Hcode, Hmsg. reflexivity.
Qed.

End StatusPair.

(** C3: for a status that is not [None] and has a code and a message, and
    for any message argument, the constructor returns a signal whose text is
    exactly the code, a colon and a space, and the message of the status;
    the message argument is ignored. *)
Theorem statement_status_text (status code msg message : value) :
  getattr status "code" = Returns code →
  getattr status "message" = Returns msg →
  ∃ e, StatementExecutionException status message = Returns e ∧
       args e = [VStr (py_str code +:+ ": " +:+ py_str msg)] ∧
       text e = py_str code +:+ ": " +:+ py_str msg ∧
       ∀ message', StatementExecutionException status message' = Returns e.
Proof.
  intros Hcode Hmsg. eexists. split_and!.
  - by apply StatementExecutionException_status.
  - reflexivity.
  - reflexivity.
  - intros message'. by apply StatementExecutionException_status.
Qed.

Lemma statement_status_text_witness :
  ∃ e, StatementExecutionException (Samples.status 300 "execution failed") (VStr "ignored")
       = Returns e ∧
       text e = "300: execution failed".
Proof.
  destruct (statement_status_text (Samples.status 300 "execution failed")
              (VInt 300) (VStr "execution failed") (VStr "ignored")
              eq_refl eq_refl) as (e & He & _ & Htext & _).
  exists e. split; [exact He | exact Htext].
Defined.

(** C6: built with [status=None] and a message that is not [None], the
    signal has the message as its only argument and [str(message)] as its
    text, the message itself when it is a string; built with both [None],
    it has no argument and an empty text. *)
Theorem statement_message_text :
  (∀ message, message ≠ VNone →
     ∃ e, StatementExecutionException VNone message = Returns e ∧
          args e = [message] ∧ text e = py_str message) ∧
  (∀ s, ∃ e, StatementExecutionException VNone (VStr s) = Returns e ∧ text e = s) ∧
  (∃ e, StatementExecutionException VNone VNone = Returns e ∧
        args e = [] ∧ text e = "").
Proof.
  split_and!.
  - intros message Hmessage%is_not_None_true.
    unfold StatementExecutionException. simpl. rewrite Hmessage.
    eexists. split; [reflexivity |]. split; [reflexivity |].
    by apply text_single.
  - intros s. eexists. split; reflexivity.
  - eexists. split; [reflexivity |]. split; [reflexivity |].
    by apply text_empty.
Qed.

Lemma statement_message_text_witness :
  VInt 503 ≠ VNone ∧
  ∃ e, StatementExecutionException VNone (VInt 503) = Returns e ∧ text e = "503".
Proof.
  split; [discriminate |].
  destruct statement_message_text as (Hmessage & _ & _).
  destruct (Hmessage (VInt 503)) as (e & He & _ & Htext); [discriminate |].
  exists e. split; [exact He | exact Htext].
Defined.

(** ** Redirect *)

(** C2: for every input, the redirect signal has exactly one of the two
    attributes [redirect_node] and [device_to_endpoint]: either
    [redirect_node] is bound, to the input, which is a [TEndPoint], and
    [device_to_endpoint] is not, or [device_to_endpoint] is bound, to the
    input, which is no [TEndPoint], and [redirect_node] is not. *)
Theorem redirect_exactly_one_field (redirect_info : value) :
  let e := RedirectException redirect_info in
  xorb (hasattr e "redirect_node") (hasattr e "device_to_endpoint") = true ∧
  size (dict e) = 1%nat ∧
  (isinstance_TEndPoint redirect_info = true ∧
   instance_getattr e "redirect_node" = Returns redirect_info ∧
   hasattr e "device_to_endpoint" = false
   ∨
   isinstance_TEndPoint redirect_info = false ∧
   instance_getattr e "device_to_endpoint" = Returns redirect_info ∧
   hasattr e "redirect_node" = false).
Proof.
  intros e. subst e.
  destruct (isinstance_TEndPoint redirect_info) eqn:Hep.
  - destruct (redirect_node_of_endpoint _ Hep) as [Hnode Hmap].
    rewrite (hasattr_getattr _ _ _ Hnode), (hasattr_raises _ _ _ Hmap).
    split_and!; [done | | left; done].
    rewrite (RedirectException_endpoint _ Hep). apply map_size_singleton.
  - destruct (device_to_endpoint_of_other _ Hep) as [Hmap Hnode].
    rewrite (hasattr_getattr _ _ _ Hmap), (hasattr_raises _ _ _ Hnode).
    split_and!; [done | | right; done].
    rewrite (RedirectException_other _ Hep). apply map_size_singleton.
Qed.

(** C7: a redirect signal built from a [TEndPoint] instance [E] has [E] as
    its [redirect_node] and has no [device_to_endpoint]: reading it raises
    [AttributeError]. *)
Theorem redirect_from_endpoint (E : value) :
  isinstance_TEndPoint E = true →
  instance_getattr (RedirectException E) "redirect_node" = Returns E ∧
  instance_getattr (RedirectException E) "device_to_endpoint"
  = Raises (AttributeError "RedirectException" "device_to_endpoint") ∧
  dict (RedirectException E) !! "device_to_endpoint" = None.
Proof.
  intros Hep. destruct (redirect_node_of_endpoint E Hep) as [Hnode Hmap].
  split_and!; [done | done |].
  rewrite (RedirectException_endpoint _ Hep). simpl.
  by rewrite lookup_insert_ne.
Qed.

Lemma redirect_from_endpoint_witness :
  instance_getattr (RedirectException Samples.EndpointA) "redirect_node"
  = Returns Samples.EndpointA ∧
  hasattr (RedirectException Samples.EndpointA) "device_to_endpoint" = false.
Proof.
  destruct (redirect_from_endpoint Samples.EndpointA eq_refl) as (Hnode & Hmap & _).
  split; [exact Hnode |].
  exact (hasattr_raises _ _ _ Hmap).
Defined.

(** C8: a redirect signal built from a mapping [M] of device identifiers to
    endpoints has [M] itself, with the same entries in the same order, as
    its [device_to_endpoint] and has no [redirect_node]. *)
Theorem redirect_from_mapping (M : list (value * value)) :
  instance_getattr (RedirectException (VDict M)) "device_to_endpoint"
  = Returns (VDict M) ∧
  instance_getattr (RedirectException (VDict M)) "redirect_node"
  = Raises (AttributeError "RedirectException" "redirect_node") ∧
  dict (RedirectException (VDict M)) !! "redirect_node" = None.
Proof.
  destruct (device_to_endpoint_of_other (VDict M) (isinstance_TEndPoint_dict M))
    as [Hmap Hnode].
  split_and!; [done | done |].
  unfold RedirectException. simpl. by rewrite lookup_insert_ne.
Qed.

(** C10: an input that is no [TEndPoint] instance, [None] included, is
    stored as it is under [device_to_endpoint], and [redirect_node] is left
    unbound. *)
Theorem redirect_other_input_stored (redirect_info : value) :
  isinstance_TEndPoint redirect_info = false →
  dict (RedirectException redirect_info) = {[ "device_to_endpoint" := redirect_info ]} ∧
  instance_getattr (RedirectException redirect_info) "device_to_endpoint"
  = Returns redirect_info ∧
  hasattr (RedirectException redirect_info) "redirect_node" = false.
Proof.
  intros Hother. destruct (device_to_endpoint_of_other _ Hother) as [Hmap Hnode].
  split_and!.
  - rewrite (RedirectException_other _ Hother). simpl. apply insert_empty.
  - exact Hmap.
  - exact (hasattr_raises _ _ _ Hnode).
Qed.

Lemma redirect_other_input_stored_witness :
  instance_getattr (RedirectException VNone) "device_to_endpoint" = Returns VNone ∧
  hasattr (RedirectException VNone) "redirect_node" = false.
Proof.
  destruct (redirect_other_input_stored VNone eq_refl) as (_ & Hmap & Hnode).
  split; [exact Hmap | exact Hnode].
Defined.

(** ** Outside the claims: what the constructors do on other inputs *)

(** A status that is not [None] and has no [code] makes the constructor
    raise [AttributeError] before any signal is built. *)
Lemma statement_status_without_code (status message : value) (fields : gmap string value)
      (cls repr : string) :
  status = VObject cls fields repr → fields !! "code" = None →
  StatementExecutionException status message = Raises (AttributeError cls "code").
Proof.
  intros -> Hnone. unfold StatementExecutionException. simpl. by rewrite Hnone.
Qed.

(** The signals built here never have more than one argument. *)
Lemma connection_args_short (reason cause message : value) :
  (length (args (IoTDBConnectionException reason cause message)) ≤ 1)%nat.
Proof.
  unfold IoTDBConnectionException.
  destruct (is_not_None reason), (is_not_None cause), (is_not_None message);
    simpl; lia.
Qed.

Example connection_timeout :
  text (IoTDBConnectionException (VStr "timeout") VNone VNone) = "timeout".
Proof. reflexivity. Qed.

Example connection_message_and_cause :
  text (IoTDBConnectionException VNone Samples.refused (VStr "while opening the session"))
  = py_str Samples.refused.
Proof. reflexivity. Qed.

Example statement_status_300 :
  text <$> StatementExecutionException (Samples.status 300 "execution failed") VNone
  = Returns "300: execution failed".
Proof. vm_compute. reflexivity. Qed.

Example statement_str_status :
  StatementExecutionException (VStr "300") VNone = Raises (AttributeError "str" "code").
Proof. reflexivity. Qed.

Example redirect_two_devices :
  instance_getattr (RedirectException Samples.mapping) "device_to_endpoint"
  = Returns (VDict [(VStr "d1", Samples.EndpointA); (VStr "d2", Samples.EndpointB)]) ∧
  hasattr (RedirectException Samples.mapping) "redirect_node" = false.
Proof. split; reflexivity. Qed.

(** ** Beyond the claims: failure, retention and composition *)

(** An attribute that cannot be read always fails with the [AttributeError]
    of the object's type. *)
Lemma getattr_raises (v : value) (name : string) (err : raised) :
  getattr v name = Raises err → err = AttributeError (type_name v) name.
Proof.
  destruct v; simpl; try congruence.
  - destruct (String.eqb name "args"); congruence.
  - destruct (fields !! name); congruence.
Qed.

Lemma getattr_None (name : string) :
  getattr VNone name = Raises (AttributeError "NoneType" name).
Proof. reflexivity. Qed.

(** The statement constructor on a status that is not [None]: the two
    attribute reads of the f-string, in order, then the signal. *)
Lemma StatementExecutionException_not_None (status message : value) :
  status ≠ VNone →
  StatementExecutionException status message
  = match getattr status "code" with
    | Raises err => Raises err
    | Returns code =>
        match getattr status "message" with
        | Raises err => Raises err
        | Returns msg =>
            Returns (Exception_init (new "StatementExecutionException")
                       [VStr (py_format code +:+ ": " +:+ py_format msg)])
        end
    end.
Proof.
  intros Hstatus%is_not_None_true. unfold StatementExecutionException.
  rewrite Hstatus. destruct (getattr status "code"); [| reflexivity].
  simpl. destruct (getattr status "message"); reflexivity.
Qed.

Lemma StatementExecutionException_None (message : value) :
  StatementExecutionException VNone message
  = Returns (Exception_init (new "StatementExecutionException")
               (if is_not_None message then [message] else [])).
Proof. unfold StatementExecutionException. simpl. by destruct (is_not_None message). Qed.

(** The statement constructor returns a signal exactly when the status is
    [None] or both [status.code] and [status.message] can be read. *)
Theorem statement_returns_iff (status message : value) :
  (∃ e, StatementExecutionException status message = Returns e) ↔
  status = VNone ∨
  (∃ code msg, getattr status "code" = Returns code ∧
               getattr status "message" = Returns msg).
Proof.
  split.
  - intros [e He]. destruct (is_not_None status) eqn:Hstatus.
    + right. apply is_not_None_true in Hstatus.
      rewrite (StatementExecutionException_not_None _ _ Hstatus) in He.
      destruct (getattr status "code") as [code |]; [| discriminate].
      destruct (getattr status "message") as [msg |]; [| discriminate].
      by exists code, msg.
    + left. by apply is_not_None_false.
  - intros [-> | (code & msg & Hcode & Hmsg)].
    + rewrite StatementExecutionException_None. by eexists.
    + rewrite (StatementExecutionException_status _ _ _ Hcode Hmsg). by eexists.
Qed.

Lemma statement_returns_iff_witness :
  ∃ e, StatementExecutionException (Samples.status 300 "execution failed") VNone
       = Returns e.
Proof.
  apply (statement_returns_iff (Samples.status 300 "execution failed") VNone).
  right. exists (VInt 300), (VStr "execution failed"). split; reflexivity.
Defined.

(** When the statement constructor raises, the status is not [None], the
    error is the [AttributeError] of the first of [status.code] and
    [status.message] that cannot be read, and no message argument avoids
    it. *)
Theorem statement_raises_attribute_error (status message : value) (err : raised) :
  StatementExecutionException status message = Raises err →
  status ≠ VNone ∧
  (getattr status "code" = Raises err ∧
   err = AttributeError (type_name status) "code"
   ∨
   (∃ code, getattr status "code" = Returns code) ∧
   getattr status "message" = Raises err ∧
   err = AttributeError (type_name status) "message") ∧
  (∀ message', StatementExecutionException status message' = Raises err).
Proof.
  intros Hraise.
  assert (Hstatus : status ≠ VNone).
  { intros ->. by rewrite StatementExecutionException_None in Hraise. }
  split; [exact Hstatus |].
  assert (Hall : ∀ m, StatementExecutionException status m
                      = StatementExecutionException status message).
  { intros m. by rewrite !StatementExecutionException_not_None. }
  split; [| intros m; by rewrite Hall].
  rewrite (StatementExecutionException_not_None _ _ Hstatus) in Hraise.
  destruct (getattr status "code") as [code | err1] eqn:Hcode.
  - destruct (getattr status "message") as [msg | err2] eqn:Hmsg; [discriminate |].
    right. injection Hraise as <-.
    split_and!; [by exists code | done | by apply getattr_raises].
  - left. injection Hraise as <-. split; [done | by apply getattr_raises].
Qed.

Lemma statement_raises_attribute_error_witness :
  StatementExecutionException (VStr "300") (VStr "execution failed")
  = Raises (AttributeError "str" "code") ∧
  StatementExecutionException (VStr "300") VNone = Raises (AttributeError "str" "code").
Proof.
  split; [reflexivity |].
  apply (statement_raises_attribute_error (VStr "300") (VStr "execution failed")
           (AttributeError "str" "code") eq_refl).
Defined.

(** A statement signal keeps the formatted text only: its [__dict__] is
    empty, and when the status is not [None] its single argument is a
    string, so neither the status object nor the message argument is
    retained. *)
Theorem statement_keeps_text_only (status message : value) (e : instance) :
  StatementExecutionException status message = Returns e →
  class e = "StatementExecutionException" ∧
  dict e = ∅ ∧
  (length (args e) ≤ 1)%nat ∧
  (status ≠ VNone → ∃ s, args e = [VStr s] ∧ text e = s).
Proof.
  intros He. destruct (is_not_None status) eqn:Hstatus.
  - apply is_not_None_true in Hstatus.
    rewrite (StatementExecutionException_not_None _ _ Hstatus) in He.
    destruct (getattr status "code") as [code |]; [| discriminate].
    destruct (getattr status "message") as [msg |]; [| discriminate].
    injection He as <-. split_and!; try done. intros _. by eexists.
  - apply is_not_None_false in Hstatus. subst status.
    rewrite StatementExecutionException_None in He. injection He as <-.
    split_and!; try done. simpl. destruct (is_not_None message); simpl; lia.
Qed.

Lemma statement_keeps_text_only_witness :
  dict (Exception_init (new "StatementExecutionException") [VStr "300: execution failed"])
  = ∅.
Proof.
  apply (statement_keeps_text_only (Samples.status 300 "execution failed") VNone).
  reflexivity.
Defined.

(** *** The text of a status with an integer code can be read back *)

Lemma pretty_N_char_no_colon (x : N) : Ascii.eqb ":" (pretty_N_char x) = false.
Proof. unfold pretty_N_char. by repeat case_match. Qed.

Lemma pretty_N_go_no_colon (x : N) (s : string) :
  Repr.contains ":" s = false → Repr.contains ":" (pretty_N_go x s) = false.
Proof.
  revert s. induction (N.lt_wf_0 x) as [x _ IH]. intros s Hs.
  assert (x = 0 ∨ 0 < x)%N as [-> | Hpos] by lia.
  - by rewrite pretty_N_go_0.
  - rewrite pretty_N_go_step by done.
    apply IH; [by apply N.div_lt |].
    cbn [Repr.contains]. by rewrite pretty_N_char_no_colon, Hs.
Qed.

Lemma pretty_N_no_colon (x : N) : Repr.contains ":" (pretty x) = false.
Proof.
  unfold pretty, pretty_N. case_decide; [reflexivity |].
  by apply pretty_N_go_no_colon.
Qed.

Lemma pretty_Z_no_colon (n : Z) : Repr.contains ":" (pretty n) = false.
Proof.
  destruct n as [| p | p]; unfold pretty, pretty_Z; [reflexivity | |].
  - apply pretty_N_no_colon.
  - cbn [String.append Repr.contains]. apply pretty_N_no_colon.
Qed.

(** A text is cut at its first colon in one way only. *)
Lemma cut_at_colon (s1 s2 t1 t2 : string) :
  Repr.contains ":" s1 = false → Repr.contains ":" s2 = false →
  s1 +:+ String ":" t1 = s2 +:+ String ":" t2 →
  s1 = s2 ∧ t1 = t2.
Proof.
  revert s2. induction s1 as [| a s1 IH]; intros [| b s2];
    cbn [Repr.contains String.append].
  - intros _ _ [= ->]. done.
  - intros _ Hb [= <- _]. discriminate Hb.
  - intros Ha _ [= -> _]. discriminate Ha.
  - intros [_ Ha]%orb_false_iff [_ Hb]%orb_false_iff [= -> Htail].
    destruct (IH s2 Ha Hb Htail) as [-> ->]. done.
Qed.

(** Two statuses with integer codes and string messages that give signals
    of the same text have the same code and the same message: the server's
    code and message can be read back from the text. *)
Theorem statement_text_determines_status
    (status status' message message' : value) (code code' : Z) (msg msg' : string)
    (e e' : instance) :
  getattr status "code" = Returns (VInt code) →
  getattr status "message" = Returns (VStr msg) →
  getattr status' "code" = Returns (VInt code') →
  getattr status' "message" = Returns (VStr msg') →
  StatementExecutionException status message = Returns e →
  StatementExecutionException status' message' = Returns e' →
  text e = text e' →
  code = code' ∧ msg = msg'.
Proof.
  intros Hc Hm Hc' Hm' He He' Htext.
  rewrite (StatementExecutionException_status _ _ _ Hc Hm) in He.
  rewrite (StatementExecutionException_status _ _ _ Hc' Hm') in He'.
  injection He as <-. injection He' as <-.
  unfold text, as_value, py_format in Htext. cbn in Htext.
  destruct (cut_at_colon (pretty code) (pretty code')
              (String " " msg) (String " " msg')) as [Hcode Hmsg];
    [apply pretty_Z_no_colon | apply pretty_Z_no_colon | exact Htext |].
  split; [by apply (inj pretty) | congruence].
Qed.

Lemma statement_text_determines_status_witness :
  (300 : Z) = 300 ∧ "execution failed" = "execution failed".
Proof.
  eapply (statement_text_determines_status
            (Samples.status 300 "execution failed") (Samples.status 300 "execution failed")
            VNone (VStr "ignored")); reflexivity.
Defined.

(** With a string for a code the text does not tell code and message
    apart. *)
Example statement_text_ambiguous :
  text <$> StatementExecutionException
             (VObject "TSStatus" {[ "code" := VStr "3"; "message" := VStr "0: x" ]} "") VNone
  = text <$> StatementExecutionException
               (VObject "TSStatus" {[ "code" := VStr "3: 0"; "message" := VStr "x" ]} "") VNone.
Proof. vm_compute. reflexivity. Qed.

(** *** Redirect *)

(** Whatever it is built from, a redirect signal has no argument and an
    empty text: [Exception.__init__(self)] is called with nothing, so the
    redirect information is in the attribute only and [str] shows none of
    it. *)
Theorem redirect_text_empty (redirect_info : value) :
  args (RedirectException redirect_info) = [] ∧
  text (RedirectException redirect_info) = "" ∧
  instance_getattr (RedirectException redirect_info) "args" = Returns (VTuple []).
Proof.
  assert (Hargs : args (RedirectException redirect_info) = []).
  { unfold RedirectException. by destruct (isinstance_TEndPoint redirect_info). }
  split_and!; [done | by apply text_empty |].
  unfold instance_getattr. simpl. by rewrite Hargs.
Qed.

(** Two redirect signals are equal only when they were built from the same
    value: the constructor loses nothing of its input. *)
Theorem redirect_injective (info info' : value) :
  RedirectException info = RedirectException info' → info = info'.
Proof.
  intros Heq.
  assert (Hnode : dict (RedirectException info) !! "redirect_node"
                  = dict (RedirectException info') !! "redirect_node") by by rewrite Heq.
  assert (Hmap : dict (RedirectException info) !! "device_to_endpoint"
                 = dict (RedirectException info') !! "device_to_endpoint") by by rewrite Heq.
  clear Heq.
  destruct (isinstance_TEndPoint info) eqn:Hep, (isinstance_TEndPoint info') eqn:Hep'.
  - rewrite (RedirectException_endpoint _ Hep), (RedirectException_endpoint _ Hep') in Hnode.
    simpl in Hnode. rewrite !lookup_insert_eq in Hnode. congruence.
  - rewrite (RedirectException_endpoint _ Hep), (RedirectException_other _ Hep') in Hnode.
    simpl in Hnode. rewrite lookup_insert_eq, lookup_insert_ne in Hnode by done.
    discriminate Hnode.
  - rewrite (RedirectException_other _ Hep), (RedirectException_endpoint _ Hep') in Hnode.
    simpl in Hnode. rewrite lookup_insert_eq, lookup_insert_ne in Hnode by done.
    discriminate Hnode.
  - rewrite (RedirectException_other _ Hep), (RedirectException_other _ Hep') in Hmap.
    simpl in Hmap. rewrite !lookup_insert_eq in Hmap. congruence.
Qed.

Lemma redirect_injective_witness : Samples.EndpointA = Samples.EndpointA.
Proof. apply (redirect_injective Samples.EndpointA Samples.EndpointA). reflexivity. Defined.

(** *** Connection failure *)

(** A cause is handled as a reason is: it is not chained, and a signal
    built with [cause=x] alone is the signal built with [reason=x]. *)
Theorem connection_cause_as_reason (cause message : value) :
  IoTDBConnectionException VNone cause message
  = IoTDBConnectionException cause VNone VNone ∧
  dict (IoTDBConnectionException VNone cause message) = ∅.
Proof.
  unfold IoTDBConnectionException. cbn [is_not_None].
  destruct (is_not_None cause); [done |].
  by rewrite andb_false_r.
Qed.

Lemma iter_cause_exception (n : nat) (message : value) (e : instance) :
  ∃ cls a,
    Nat.iter n (λ v, as_value (IoTDBConnectionException VNone v message)) (as_value e)
    = VException cls a.
Proof.
  destruct n as [| n]; simpl.
  - by exists (class e), (args e).
  - unfold as_value at 1. by eexists _, _.
Qed.

(** A signal of this module given as the reason or the cause of a
    connection failure, or as the message of a statement failure, hands its
    text on unchanged, also through any number of connection failures each
    built with the one before as its cause. *)
Theorem wrapped_signal_keeps_text (e : instance) (cause message : value) (n : nat) :
  text (IoTDBConnectionException (as_value e) cause message) = text e ∧
  text (IoTDBConnectionException VNone (as_value e) message) = text e ∧
  text <$> StatementExecutionException VNone (as_value e) = Returns (text e) ∧
  py_str (Nat.iter n (λ v, as_value (IoTDBConnectionException VNone v message))
            (as_value e)) = text e.
Proof.
  split_and!; try reflexivity.
  induction n as [| n IH]; [reflexivity |].
  destruct (iter_cause_exception n message e) as (cls & a & Hiter).
  cbn [Nat.iter nat_rect]. unfold Nat.iter in Hiter, IH.
  rewrite Hiter in *. exact IH.
Qed.
